(** * Star-Wars favourites REST API: a shallow embedding of [src/app.py]

    The Flask application of [src/app.py] is embedded as functions over an
    explicit database store and a per-request ORM session.  Every view
    function is translated statement by statement; the way Flask invokes a
    view (the URL variables of the matched rule are passed as keyword
    arguments) and the way Python binds keyword arguments to a function's
    declared parameters are part of the model, because the routes and the
    [def] lines are part of the source. *)

From Stdlib Require Import ZArith List Ascii String Bool Lia.
Import ListNotations.
Local Open Scope Z_scope.
Local Open Scope string_scope.
Local Open Scope list_scope.

(** ** JSON values *)

#[local] Set Warnings "-register-all".

Inductive json : Type :=
| JNull
| JBool (b : bool)
| JNum (n : Z)
| JStr (s : string)
| JArr (items : list json)
| JObj (fields : list (string * json)).

(** An optional integer column: [None] is JSON [null]. *)
Definition json_of_optional (o : option Z) : json :=
  match o with
  | Some n => JNum n
  | None => JNull
  end.

(** Value stored under a key of a JSON object (first occurrence). *)
Definition json_field (key : string) (j : json) : option json :=
  match j with
  | JObj fields =>
      match find (fun kv => String.eqb (fst kv) key) fields with
      | Some kv => Some (snd kv)
      | None => None
      end
  | _ => None
  end.

(** ** Data model ([models.py], imported at line 11) *)

(** Interface of a mapped class: its primary key (absent until the object
    has been flushed) and its conversion to a JSON mapping. *)
Class Model (T : Type) : Type := {
  pk : T -> option Z;
  serialize : T -> json
}.

(** Modelled from the spec: [models.py] is missing.  A user has a numeric
    id, an email, a password and an active flag; its serialization is the
    mapping of its attributes, primary key included. *)
Record User : Type := {
  user_pk : Z;
  email : string;
  password : string;
  is_active : bool
}.

(** Modelled from the spec: [models.py] is missing.  People, Vehicles and
    Planets are reference entities: a numeric id, a name and descriptive
    fields. *)
Record People : Type := {
  people_pk : Z;
  people_name : string;
  people_fields : list (string * json)
}.

Record Vehicles : Type := {
  vehicles_pk : Z;
  vehicles_name : string;
  vehicles_fields : list (string * json)
}.

Record Planets : Type := {
  planets_pk : Z;
  planets_name : string;
  planets_fields : list (string * json)
}.

(** Modelled from the spec: [models.py] is missing.  A favourite has a
    numeric id and three optional foreign keys.  The keyword arguments of
    the constructor calls at lines 117, 133 and 149 name the columns.  The
    id of a Python object is [None] until the session flushes it. *)
Record Favorites : Type := {
  fav_id : option Z;
  people_id : option Z;
  vehicles_id : option Z;
  planets_id : option Z
}.

(** Modelled from the spec: [models.py] is missing.  Each entity converts
    to the JSON mapping of its attributes, field name to value, with the
    primary key always included. *)
#[export] Instance User_Model : Model User := {
  pk u := Some (user_pk u);
  serialize u :=
    JObj [("id", JNum (user_pk u)); ("email", JStr (email u));
          ("password", JStr (password u)); ("is_active", JBool (is_active u))]
}.

#[export] Instance People_Model : Model People := {
  pk p := Some (people_pk p);
  serialize p :=
    JObj (("id", JNum (people_pk p)) :: ("name", JStr (people_name p))
            :: people_fields p)
}.

#[export] Instance Vehicles_Model : Model Vehicles := {
  pk v := Some (vehicles_pk v);
  serialize v :=
    JObj (("id", JNum (vehicles_pk v)) :: ("name", JStr (vehicles_name v))
            :: vehicles_fields v)
}.

#[export] Instance Planets_Model : Model Planets := {
  pk p := Some (planets_pk p);
  serialize p :=
    JObj (("id", JNum (planets_pk p)) :: ("name", JStr (planets_name p))
            :: planets_fields p)
}.

(** Modelled from the spec: [models.py] is missing.  Favourites serialize
    their raw foreign keys, with no nested expansion. *)
#[export] Instance Favorites_Model : Model Favorites := {
  pk f := fav_id f;
  serialize f :=
    JObj [("id", json_of_optional (fav_id f));
          ("people_id", json_of_optional (people_id f));
          ("vehicles_id", json_of_optional (vehicles_id f));
          ("planets_id", json_of_optional (planets_id f))]
}.

(** Modelled from the spec: [models.py] is missing.  The source calls the
    conversion under three method names ([serialize], [to_json],
    [to_jason]); the spec describes one conversion per entity, used by the
    list endpoints and the single-item endpoints alike. *)
Definition to_json {T : Type} `{Model T} (row : T) : json := serialize row.
Definition to_jason {T : Type} `{Model T} (row : T) : json := serialize row.

(** ** The database *)

(** The five tables; a table is the list of its rows in the order the
    store returns them. *)
Record Store : Type := {
  User_table : list User;
  People_table : list People;
  Vehicles_table : list Vehicles;
  Planets_table : list Planets;
  Favorites_table : list Favorites
}.

(** The store with its favourites table replaced; the other four tables
    are never written by the application. *)
Definition with_favorites (db : Store) (table : list Favorites) : Store :=
  {| User_table := User_table db;
     People_table := People_table db;
     Vehicles_table := Vehicles_table db;
     Planets_table := Planets_table db;
     Favorites_table := table |}.

Definition has_pk {T : Type} `{Model T} (k : Z) (row : T) : bool :=
  match pk row with
  | Some k' => Z.eqb k' k
  | None => false
  end.

(** [Model.query.all()] *)
Definition query_all {T : Type} (table : list T) : list T := table.

(** [Model.query.get(k)]: the row with primary key [k], or [None]. *)
Definition query_get {T : Type} `{Model T} (table : list T) (k : Z)
  : option T :=
  find (has_pk k) table.

(** Modelled from the spec: the database engine is an external
    collaborator.  Create auto-assigns the primary key; the key handed
    out is one more than the largest key in the table. *)
Definition next_id {T : Type} `{Model T} (table : list T) : Z :=
  1 + fold_right Z.max 0 (map (fun row => match pk row with
                                          | Some k => k
                                          | None => 0
                                          end) table).

(** Delete removes the row matching a given id. *)
Definition delete_row {T : Type} `{Model T} (k : Z) (table : list T)
  : list T :=
  filter (fun row => negb (has_pk k row)) table.

(** ** The ORM session of one request *)

(** A Python object is held by reference: the flush writes the assigned
    primary key into the very object the view still holds. *)
Definition ref : Type := nat.

Record Session : Type := {
  objects : list Favorites;
  pending_new : list ref;
  pending_deleted : list ref
}.

Definition empty_session : Session :=
  {| objects := []; pending_new := []; pending_deleted := [] |}.

Fixpoint list_update {A : Type} (l : list A) (i : nat) (x : A) : list A :=
  match l, i with
  | [], _ => []
  | _ :: rest, O => x :: rest
  | y :: rest, S i' => y :: list_update rest i' x
  end.

Definition with_id (f : Favorites) (k : Z) : Favorites :=
  {| fav_id := Some k;
     people_id := people_id f;
     vehicles_id := vehicles_id f;
     planets_id := planets_id f |}.

(** INSERT of the pending new objects, in the order they were added. *)
Fixpoint flush_new (pending : list ref) (heap table : list Favorites)
  : list Favorites * list Favorites :=
  match pending with
  | [] => (heap, table)
  | r :: rest =>
      match nth_error heap r with
      | Some obj =>
          let obj' := with_id obj (next_id table) in
          flush_new rest (list_update heap r obj') (table ++ [obj'])
      | None => flush_new rest heap table
      end
  end.

(** DELETE of the objects marked as deleted, by primary key. *)
Fixpoint flush_deleted (pending : list ref) (heap table : list Favorites)
  : list Favorites :=
  match pending with
  | [] => table
  | r :: rest =>
      match nth_error heap r with
      | Some obj =>
          match fav_id obj with
          | Some k => flush_deleted rest heap (delete_row k table)
          | None => flush_deleted rest heap table
          end
      | None => flush_deleted rest heap table
      end
  end.

(** ** Requests, exceptions and the view monad *)

Inductive http_method : Type := GET | POST | DELETE.

Definition http_method_eqb (a b : http_method) : bool :=
  match a, b with
  | GET, GET | POST, POST | DELETE, DELETE => true
  | _, _ => false
  end.

(** The URLs registered by the [@app.route] decorators of lines 91-192,
    with the values of their [<int:...>] variables. *)
Inductive url : Type :=
| url_users
| url_user (user_id : Z)
| url_user_favorites (user_id : Z)
| url_favorite_person (user_id person_id : Z)
| url_favorite_vehicle (user_id vehicle_id : Z)
| url_favorite_planet (user_id planet_id : Z)
| url_people
| url_person (person_id : Z)
| url_vehicles
| url_vehicle (vehicle_id : Z)
| url_planets
| url_planet (planet_id : Z).

Record Request : Type := {
  method : http_method;
  path : url
}.

(** Modelled from the spec: [utils.py] is missing.  The typed error
    carries a message and an HTTP status code, 400 when none is given. *)
Record APIException : Type := {
  message : string;
  status_code : Z
}.

Definition new_APIException (msg : string) (code : option Z) : APIException :=
  {| message := msg;
     status_code := match code with Some c => c | None => 400 end |}.

(** Modelled from the spec: [utils.py] is missing.  The error is
    serialized as its message and its status code. *)
Definition to_dict (error : APIException) : json :=
  JObj [("message", JStr (message error));
        ("status_code", JNum (status_code error))].

(** What a view can raise: the typed error, or an untyped Python or
    framework error. *)
Inductive exception : Type :=
| APIError (error : APIException)
| TypeError_unexpected_keyword (name : string)
| TypeError_missing_argument (name : string)
| AttributeError_NoneType (attribute : string)
| MethodNotAllowed.

Definition is_typed (e : exception) : bool :=
  match e with
  | APIError _ => true
  | _ => false
  end.

Record World : Type := {
  request : Request;
  store : Store;
  session : Session
}.

Inductive outcome (A : Type) : Type :=
| Returned (value : A)
| Raised (e : exception).
Arguments Returned {A} value.
Arguments Raised {A} e.

(** A computation reads and writes the world and either returns or
    raises; what it wrote before raising stays written. *)
Definition M (A : Type) : Type := World -> outcome A * World.

Definition ret {A : Type} (a : A) : M A := fun w => (Returned a, w).

Definition bind {A B : Type} (c : M A) (k : A -> M B) : M B :=
  fun w =>
    match c w with
    | (Returned a, w') => k a w'
    | (Raised e, w') => (Raised e, w')
    end.

Definition raise {A : Type} (e : exception) : M A := fun w => (Raised e, w).

Declare Scope view_scope.
Delimit Scope view_scope with view.
Notation "x <- c ;; k" := (bind c (fun x => k))
  (at level 100, c at next level, right associativity) : view_scope.
Notation "c ;;; k" := (bind c (fun _ => k))
  (at level 100, right associativity) : view_scope.
Local Open Scope view_scope.

Definition get_world : M World := fun w => (Returned w, w).

Definition request_method : M http_method :=
  fun w => (Returned (method (request w)), w).

Definition set_session (s : Session) : M unit :=
  fun w => (Returned tt,
            {| request := request w; store := store w; session := s |}).

Definition set_favorites (table : list Favorites) : M unit :=
  fun w =>
    (Returned tt,
     {| request := request w;
        store := with_favorites (store w) table;
        session := session w |}).

(** *** Session operations *)

(** [Favorites(people_id=..., ...)]: a fresh transient object. *)
Definition new_Favorites (people vehicles planets : option Z) : M ref :=
  w <- get_world ;;
  let s := session w in
  set_session {| objects := objects s ++
                   [{| fav_id := None; people_id := people;
                       vehicles_id := vehicles; planets_id := planets |}];
                 pending_new := pending_new s;
                 pending_deleted := pending_deleted s |} ;;;
  ret (List.length (objects s)).

(** [Favorites.query.get(k)]: the loaded object, or [None]. *)
Definition Favorites_query_get (k : Z) : M (option ref) :=
  w <- get_world ;;
  match query_get (Favorites_table (store w)) k with
  | None => ret None
  | Some row =>
      let s := session w in
      set_session {| objects := objects s ++ [row];
                     pending_new := pending_new s;
                     pending_deleted := pending_deleted s |} ;;;
      ret (Some (List.length (objects s)))
  end.

(** [db.session.add(obj)] *)
Definition db_session_add (obj : ref) : M unit :=
  w <- get_world ;;
  let s := session w in
  set_session {| objects := objects s;
                 pending_new := pending_new s ++ [obj];
                 pending_deleted := pending_deleted s |}.

(** [db.session.delete(obj)] *)
Definition db_session_delete (obj : ref) : M unit :=
  w <- get_world ;;
  let s := session w in
  set_session {| objects := objects s;
                 pending_new := pending_new s;
                 pending_deleted := pending_deleted s ++ [obj] |}.

(** [db.session.commit()]: flush the pending inserts, then the pending
    deletes, and make them durable. *)
Definition db_session_commit : M unit :=
  w <- get_world ;;
  let s := session w in
  let '(heap, inserted) :=
    flush_new (pending_new s) (objects s) (Favorites_table (store w)) in
  let table := flush_deleted (pending_deleted s) heap inserted in
  set_favorites table ;;;
  set_session {| objects := heap; pending_new := []; pending_deleted := [] |}.

(** [obj.serialize()] on an object held by the view. *)
Definition serialize_object (obj : ref) : M json :=
  w <- get_world ;;
  match nth_error (objects (session w)) obj with
  | Some f => ret (serialize f)
  | None => raise (AttributeError_NoneType "serialize")
  end.

(** [row.serialize()] on the result of [query.get], which is [None] when
    no row matched: Python then raises [AttributeError]. *)
Definition serialize_result {T : Type} `{Model T} (row : option T) : M json :=
  match row with
  | Some r => ret (serialize r)
  | None => raise (AttributeError_NoneType "serialize")
  end.

(** ** Responses *)

Definition response : Type := (json * Z)%type.

(** [jsonify] wraps a JSON-compatible value into a response body. *)
Definition jsonify (j : json) : json := j.

(** ** The error handler (lines 67-75) *)

Definition handle_invalid_usage (error : APIException) : response :=
  (jsonify (to_dict error), status_code error).

(** ** The view functions (lines 91-195) *)

Definition get_users : M response :=
  w <- get_world ;;
  let users := query_all (User_table (store w)) in
  ret (JArr (map to_json users), 200).

Definition get_single_user (user_id : Z) : M response :=
  w <- get_world ;;
  let user := query_get (User_table (store w)) user_id in
  body <- serialize_result user ;;
  ret (jsonify body, 200).

Definition get_favorites : M response :=
  w <- get_world ;;
  let favorites := query_all (Favorites_table (store w)) in
  ret (JArr (map to_json favorites), 200).

Definition post_or_delete_favorite_person (person_id : Z) : M response :=
  m <- request_method ;;
  if http_method_eqb m POST then
    favorite <- new_Favorites (Some person_id) None None ;;
    db_session_add favorite ;;;
    db_session_commit ;;;
    body <- serialize_object favorite ;;
    ret (jsonify body, 200)
  else
    favorite <- Favorites_query_get person_id ;;
    match favorite with
    | None => raise (APIError (new_APIException "User not found" (Some 404)))
    | Some favorite =>
        db_session_delete favorite ;;;
        db_session_commit ;;;
        body <- serialize_object favorite ;;
        ret (jsonify body, 200)
    end.

Definition post_or_delete_favorite_vehicle (vehicle_id : Z) : M response :=
  m <- request_method ;;
  if http_method_eqb m POST then
    favorite <- new_Favorites None (Some vehicle_id) None ;;
    db_session_add favorite ;;;
    db_session_commit ;;;
    body <- serialize_object favorite ;;
    ret (jsonify body, 200)
  else
    favorite <- Favorites_query_get vehicle_id ;;
    match favorite with
    | None => raise (APIError (new_APIException "User not found" (Some 404)))
    | Some favorite =>
        db_session_delete favorite ;;;
        db_session_commit ;;;
        body <- serialize_object favorite ;;
        ret (jsonify body, 200)
    end.

Definition post_or_delete_favorite_planet (planet_id : Z) : M response :=
  m <- request_method ;;
  if http_method_eqb m POST then
    favorite <- new_Favorites None None (Some planet_id) ;;
    db_session_add favorite ;;;
    db_session_commit ;;;
    body <- serialize_object favorite ;;
    ret (jsonify body, 200)
  else
    favorite <- Favorites_query_get planet_id ;;
    match favorite with
    | None => raise (APIError (new_APIException "User not found" (Some 404)))
    | Some favorite =>
        db_session_delete favorite ;;;
        db_session_commit ;;;
        body <- serialize_object favorite ;;
        ret (jsonify body, 200)
    end.

Definition get_people : M response :=
  w <- get_world ;;
  let people := query_all (People_table (store w)) in
  ret (JArr (map to_jason people), 200).

Definition get_single_person (person_id : Z) : M response :=
  w <- get_world ;;
  let person := query_get (People_table (store w)) person_id in
  body <- serialize_result person ;;
  ret (jsonify body, 200).

Definition get_vehicles : M response :=
  w <- get_world ;;
  let vehicles := query_all (Vehicles_table (store w)) in
  ret (JArr (map to_jason vehicles), 200).

Definition get_single_vehicle (vehicle_id : Z) : M response :=
  w <- get_world ;;
  let vehicle := query_get (Vehicles_table (store w)) vehicle_id in
  body <- serialize_result vehicle ;;
  ret (jsonify body, 200).

Definition get_planets : M response :=
  w <- get_world ;;
  let planets := query_all (Planets_table (store w)) in
  ret (JArr (map to_jason planets), 200).

Definition get_single_planet (planet_id : Z) : M response :=
  w <- get_world ;;
  let planet := query_get (Planets_table (store w)) planet_id in
  body <- serialize_result planet ;;
  ret (jsonify body, 200).

(** ** Routing and dispatch *)

(** A view function as its [def] line declares it: without parameter
    ([def get_users():]) or with one ([def get_single_user(user_id):]). *)
Inductive view_function : Type :=
| def0 (body : M response)
| def1 (parameter : string) (body : Z -> M response).

(** Python's binding of keyword arguments to the declared parameters: a
    keyword naming no parameter is a [TypeError], and so is a parameter
    left without a value. *)
Definition call_with_kwargs (f : view_function) (kwargs : list (string * Z))
  : M response :=
  match f with
  | def0 body =>
      match kwargs with
      | [] => body
      | (k, _) :: _ => raise (TypeError_unexpected_keyword k)
      end
  | def1 p body =>
      match find (fun kv => negb (String.eqb (fst kv) p)) kwargs with
      | Some (k, _) => raise (TypeError_unexpected_keyword k)
      | None =>
          match kwargs with
          | [] => raise (TypeError_missing_argument p)
          | (_, v) :: _ => body v
          end
      end
  end.

(** A rule of the URL map: the methods it accepts, the variables of its
    pattern with their values, and the function the decorator sits on. *)
Record Rule : Type := {
  methods : list http_method;
  view_args : list (string * Z);
  endpoint : view_function
}.

(** The [@app.route] decorators, one line each, paired with the [def]
    that follows.  A route without [methods=] accepts GET. *)
Definition url_map (u : url) : Rule :=
  match u with
  | url_users =>                                             (* line 91 *)
      {| methods := [GET]; view_args := [];
         endpoint := def0 get_users |}
  | url_user user_id =>                                      (* line 102 *)
      {| methods := [GET]; view_args := [("user_id", user_id)];
         endpoint := def1 "user_id" get_single_user |}
  | url_user_favorites user_id =>                            (* line 108 *)
      {| methods := [GET]; view_args := [("user_id", user_id)];
         endpoint := def0 get_favorites |}
  | url_favorite_person user_id person_id =>                 (* line 114 *)
      {| methods := [POST; DELETE];
         view_args := [("user_id", user_id); ("person_id", person_id)];
         endpoint := def1 "person_id" post_or_delete_favorite_person |}
  | url_favorite_vehicle user_id vehicle_id =>               (* line 130 *)
      {| methods := [POST; DELETE];
         view_args := [("user_id", user_id); ("vehicle_id", vehicle_id)];
         endpoint := def1 "vehicle_id" post_or_delete_favorite_vehicle |}
  | url_favorite_planet user_id planet_id =>                 (* line 146 *)
      {| methods := [POST; DELETE];
         view_args := [("user_id", user_id); ("planet_id", planet_id)];
         endpoint := def1 "planet_id" post_or_delete_favorite_planet |}
  | url_people =>                                            (* line 162 *)
      {| methods := [GET]; view_args := [];
         endpoint := def0 get_people |}
  | url_person person_id =>                                  (* line 168 *)
      {| methods := [GET]; view_args := [("person_id", person_id)];
         endpoint := def1 "person_id" get_single_person |}
  | url_vehicles =>                                          (* line 174 *)
      {| methods := [GET]; view_args := [];
         endpoint := def0 get_vehicles |}
  | url_vehicle vehicle_id =>                                (* line 180 *)
      {| methods := [GET]; view_args := [("vehicle_id", vehicle_id)];
         endpoint := def1 "vehicle_id" get_single_vehicle |}
  | url_planets =>                                           (* line 186 *)
      {| methods := [GET]; view_args := [];
         endpoint := def0 get_planets |}
  | url_planet planet_id =>                                  (* line 192 *)
      {| methods := [GET]; view_args := [("planet_id", planet_id)];
         endpoint := def1 "planet_id" get_single_planet |}
  end.

(** Flask's dispatch: match the rule, check the method, and call the view
    function with the URL variables as keyword arguments. *)
Definition dispatch_request : M response :=
  w <- get_world ;;
  let rule := url_map (path (request w)) in
  if existsb (http_method_eqb (method (request w))) (methods rule)
  then call_with_kwargs (endpoint rule) (view_args rule)
  else raise MethodNotAllowed.

(** What the client receives: the response of the view or of the
    registered error handler, or the framework's own error page. *)
Inductive reply : Type :=
| Reply (r : response)
| ErrorPage (status : Z) (cause : exception).

Definition reply_status (r : reply) : Z :=
  match r with
  | Reply (_, status) => status
  | ErrorPage status _ => status
  end.

Definition reply_body (r : reply) : option json :=
  match r with
  | Reply (body, _) => Some body
  | ErrorPage _ _ => None
  end.

(** Exceptions leaving a view: [@app.errorhandler(APIException)] routes
    the typed error to [handle_invalid_usage]; anything else gets the
    framework's default page (405 for a refused method, 500 otherwise). *)
Definition handle_user_exception (e : exception) : reply :=
  match e with
  | APIError error => Reply (handle_invalid_usage error)
  | MethodNotAllowed => ErrorPage 405 e
  | _ => ErrorPage 500 e
  end.

Definition full_dispatch (view : M response) : World -> reply * World :=
  fun w =>
    match view w with
    | (Returned rv, w') => (Reply rv, w')
    | (Raised e, w') => (handle_user_exception e, w')
    end.

Definition full_dispatch_request : World -> reply * World :=
  full_dispatch dispatch_request.

(** One request against the database: a fresh session is opened, the
    request is dispatched, and the session is discarded at teardown. *)
Definition open_request (req : Request) (db : Store) : World :=
  {| request := req; store := db; session := empty_session |}.

Definition wsgi_app (req : Request) (db : Store) : reply * Store :=
  let '(r, w) := full_dispatch_request (open_request req db) in
  (r, store w).

(** Running the body of a view function directly, with the argument its
    [def] line declares, in the context of a request. *)
Definition run_view (req : Request) (view : M response) (db : Store)
  : outcome response * World :=
  view (open_request req db).

(** ** Predicates used by the statements *)

Definition has_row {T : Type} `{Model T} (table : list T) (k : Z) : bool :=
  existsb (has_pk k) table.

(** The by-id entities and their GET endpoints. *)
Inductive entity : Type := EUser | EPeople | EVehicles | EPlanets.

Definition by_id_url (e : entity) (k : Z) : url :=
  match e with
  | EUser => url_user k
  | EPeople => url_person k
  | EVehicles => url_vehicle k
  | EPlanets => url_planet k
  end.

Definition entity_has_row (e : entity) (db : Store) (k : Z) : bool :=
  match e with
  | EUser => has_row (User_table db) k
  | EPeople => has_row (People_table db) k
  | EVehicles => has_row (Vehicles_table db) k
  | EPlanets => has_row (Planets_table db) k
  end.

(** The three favourites sub-routes. *)
Inductive target : Type := TPerson | TVehicle | TPlanet.

Definition favorite_url (t : target) (user_id target_id : Z) : url :=
  match t with
  | TPerson => url_favorite_person user_id target_id
  | TVehicle => url_favorite_vehicle user_id target_id
  | TPlanet => url_favorite_planet user_id target_id
  end.

Definition favorite_view (t : target) : Z -> M response :=
  match t with
  | TPerson => post_or_delete_favorite_person
  | TVehicle => post_or_delete_favorite_vehicle
  | TPlanet => post_or_delete_favorite_planet
  end.

(** The row a POST on the sub-route of [t] is meant to store. *)
Definition favorite_for (t : target) (k target_id : Z) : Favorites :=
  match t with
  | TPerson => {| fav_id := Some k; people_id := Some target_id;
                  vehicles_id := None; planets_id := None |}
  | TVehicle => {| fav_id := Some k; people_id := None;
                   vehicles_id := Some target_id; planets_id := None |}
  | TPlanet => {| fav_id := Some k; people_id := None;
                  vehicles_id := None; planets_id := Some target_id |}
  end.

Definition empty_store : Store :=
  {| User_table := []; People_table := []; Vehicles_table := [];
     Planets_table := []; Favorites_table := [] |}.

(** A small database for the concrete runs: two users, one person, and
    two favourites; favourite 5 points at person 7. *)
Definition sample_store : Store :=
  {| User_table :=
       [{| user_pk := 1; email := "luke@rebels.org"; password := "x";
           is_active := true |};
        {| user_pk := 2; email := "leia@rebels.org"; password := "y";
           is_active := true |}];
     People_table :=
       [{| people_pk := 7; people_name := "Han Solo"; people_fields := [] |}];
     Vehicles_table := [];
     Planets_table := [];
     Favorites_table :=
       [{| fav_id := Some 5; people_id := Some 7; vehicles_id := None;
           planets_id := None |};
        {| fav_id := Some 7; people_id := None; vehicles_id := None;
           planets_id := Some 3 |}] |}.

(** ** Configuration of the database connection (lines 28-40) *)

(** [s.startswith(p)] *)
Fixpoint starts_with (p s : string) : bool :=
  match p with
  | EmptyString => true
  | String a p' =>
      match s with
      | EmptyString => false
      | String b s' => Ascii.eqb a b && starts_with p' s'
      end
  end.

(** [p in s]: [p] occurs somewhere in [s]. *)
Fixpoint occurs (p s : string) : bool :=
  match s with
  | EmptyString => starts_with p EmptyString
  | String _ rest => starts_with p s || occurs p rest
  end.

(** Python's [s.replace(old, new)] for a non-empty [old], as the one call
    of line 34 has it: scanning from the left, every occurrence of [old]
    is replaced by [new] and the scan resumes after the occurrence.
    [skip] counts the characters of a replaced occurrence still to be
    passed over. *)
Fixpoint replace_from (skip : nat) (old new s : string) : string :=
  match s with
  | EmptyString => EmptyString
  | String c rest =>
      match skip with
      | S k => replace_from k old new rest
      | O =>
          if starts_with old s
          then new ++ replace_from (pred (String.length old)) old new rest
          else String c (replace_from O old new rest)
      end
  end.

Definition str_replace (old new s : string) : string :=
  replace_from O old new s.

(** The value stored under [app.config['SQLALCHEMY_DATABASE_URI']], as a
    function of [os.getenv("DATABASE_URL")]. *)
Definition SQLALCHEMY_DATABASE_URI (db_url : option string) : string :=
  match db_url with
  | Some url => str_replace "postgres://" "postgresql://" url
  | None => "sqlite:////tmp/test.db"
  end.

(** The two literals of line 34. *)
Definition legacy_scheme : string := "postgres://".
Definition current_scheme : string := "postgresql://".

(** A string without the letter p. *)
Fixpoint p_free (q : string) : bool :=
  match q with
  | EmptyString => true
  | String c q' => negb (Ascii.eqb c "p"%char) && p_free q'
  end.

(** ** Further predicates used by the statements *)

(** Every row carries a key and no two rows carry the same one. *)
Fixpoint keys_unique {T : Type} `{Model T} (table : list T) : bool :=
  match table with
  | [] => true
  | row :: rest =>
      match pk row with
      | Some k => negb (has_row rest k) && keys_unique rest
      | None => false
      end
  end.

(** The JSON served for the row of [e] under key [k], if there is one. *)
Definition entity_lookup (e : entity) (db : Store) (k : Z) : option json :=
  match e with
  | EUser => option_map serialize (query_get (User_table db) k)
  | EPeople => option_map serialize (query_get (People_table db) k)
  | EVehicles => option_map serialize (query_get (Vehicles_table db) k)
  | EPlanets => option_map serialize (query_get (Planets_table db) k)
  end.

(** The list endpoint of an entity and the array it serves. *)
Definition list_url (e : entity) : url :=
  match e with
  | EUser => url_users
  | EPeople => url_people
  | EVehicles => url_vehicles
  | EPlanets => url_planets
  end.

Definition entity_listing (e : entity) (db : Store) : list json :=
  match e with
  | EUser => map to_json (User_table db)
  | EPeople => map to_jason (People_table db)
  | EVehicles => map to_jason (Vehicles_table db)
  | EPlanets => map to_jason (Planets_table db)
  end.




(** * Properties *)

(** ** Lookups, keys and deletion *)

Section Tables.
Context {T : Type} `{Model T}.

Lemma query_get_absent (table : list T) (k : Z) :
  has_row table k = false -> query_get table k = None.
Proof.
  unfold has_row, query_get.
  induction table as [|row rest IH]; simpl; [reflexivity|].
  destruct (has_pk k row); simpl; [discriminate | exact IH].
Qed.

Lemma query_get_present (table : list T) (k : Z) (row : T) :
  query_get table k = Some row -> In row table /\ pk row = Some k.
Proof.
  unfold query_get. intros Hfind.
  apply find_some in Hfind. destruct Hfind as [Hin Hpk].
  split; [exact Hin|].
  unfold has_pk in Hpk. destruct (pk row) as [k'|]; [|discriminate].
  apply Z.eqb_eq in Hpk. now subst.
Qed.

Lemma query_get_has_row (table : list T) (k : Z) :
  has_row table k = true -> exists row, query_get table k = Some row.
Proof.
  unfold has_row, query_get.
  induction table as [|row rest IH]; simpl; [discriminate|].
  destruct (has_pk k row); simpl; [intros _; now exists row | exact IH].
Qed.

(** Every key in a table is below the key handed out next. *)
Lemma next_id_above (table : list T) (row : T) (k : Z) :
  In row table -> pk row = Some k -> k < next_id table.
Proof.
  unfold next_id.
  induction table as [|r rest IH]; cbn [map fold_right In];
    [contradiction|].
  intros [Heq | Hin] Hpk.
  - subst r. rewrite Hpk. lia.
  - specialize (IH Hin Hpk). destruct (pk r); lia.
Qed.

Lemma next_id_positive (table : list T) : 0 < next_id table.
Proof.
  unfold next_id.
  induction table as [|r rest IH]; cbn [map fold_right]; [lia|].
  destruct (pk r); lia.
Qed.

Lemma next_id_fresh (table : list T) :
  has_row table (next_id table) = false.
Proof.
  unfold has_row. apply not_true_is_false. intros Hex.
  apply existsb_exists in Hex. destruct Hex as [row [Hin Hpk]].
  unfold has_pk in Hpk. destruct (pk row) as [k|] eqn:E; [|discriminate].
  apply Z.eqb_eq in Hpk.
  pose proof (next_id_above table row k Hin E). lia.
Qed.

(** Deleting a key that no row carries leaves the table as it is. *)
Lemma delete_row_absent (table : list T) (k : Z) :
  has_row table k = false -> delete_row k table = table.
Proof.
  unfold has_row, delete_row.
  induction table as [|row rest IH]; simpl; [reflexivity|].
  destruct (has_pk k row); simpl; [discriminate|].
  intros Hrest. now rewrite (IH Hrest).
Qed.

Lemma delete_row_app (table more : list T) (k : Z) :
  delete_row k (table ++ more) = delete_row k table ++ delete_row k more.
Proof. unfold delete_row. apply filter_app. Qed.

(** After a delete no row carries the deleted key. *)
Lemma delete_row_gone (table : list T) (k : Z) :
  has_row (delete_row k table) k = false.
Proof.
  unfold has_row, delete_row. apply not_true_is_false. intros Hex.
  apply existsb_exists in Hex. destruct Hex as [row [Hin Hpk]].
  apply filter_In in Hin. destruct Hin as [_ Hneg].
  rewrite Hpk in Hneg. discriminate.
Qed.

(** A delete keeps exactly the rows with another key. *)
Lemma delete_row_In (table : list T) (k : Z) (row : T) :
  In row (delete_row k table) <-> In row table /\ has_pk k row = false.
Proof.
  unfold delete_row. rewrite filter_In.
  destruct (has_pk k row); simpl; intuition discriminate.
Qed.

(** A row appended under a key that the table does not hold is the row
    a lookup of that key finds. *)
Lemma query_get_last (table : list T) (row : T) (k : Z) :
  has_row table k = false -> pk row = Some k ->
  query_get (table ++ [row]) k = Some row.
Proof.
  unfold has_row, query_get. intros Habsent Hpk.
  induction table as [|r rest IH]; cbn in *.
  - unfold has_pk. rewrite Hpk, Z.eqb_refl. reflexivity.
  - destruct (has_pk k r); [discriminate | now apply IH].
Qed.
End Tables.

(** ** The bodies of the view functions, called as their [def] declares *)

Lemma with_favorites_same (db : Store) :
  with_favorites db (Favorites_table db) = db.
Proof. destruct db; reflexivity. Qed.

Lemma with_favorites_twice (db : Store) (a b : list Favorites) :
  with_favorites (with_favorites db a) b = with_favorites db b.
Proof. reflexivity. Qed.

Ltac unfold_view :=
  unfold run_view, open_request, favorite_view,
    post_or_delete_favorite_person, post_or_delete_favorite_vehicle,
    post_or_delete_favorite_planet, get_favorites,
    Favorites_query_get, new_Favorites, db_session_add, db_session_delete,
    db_session_commit, serialize_object, set_session, set_favorites,
    request_method, get_world, bind, ret, raise, jsonify, query_all;
  cbn -[query_get next_id delete_row].

(** With no row under the key it is given, the DELETE branch raises the
    typed error before it touches the session or the tables. *)
Lemma delete_body_absent (t : target) (req : Request) (k : Z) (db : Store) :
  method req = DELETE ->
  has_row (Favorites_table db) k = false ->
  run_view req (favorite_view t k) db =
    (Raised (APIError {| message := "User not found"; status_code := 404 |}),
     open_request req db).
Proof.
  intros Hm Habsent. apply query_get_absent in Habsent.
  destruct t; unfold_view; rewrite Hm; cbn -[query_get];
    rewrite Habsent; reflexivity.
Qed.

(** With a row under the key it is given, the DELETE branch deletes by
    that primary key, whatever the foreign keys of the rows are, and
    answers 200 with the deleted row. *)
Lemma delete_body_present (t : target) (req : Request) (k : Z) (db : Store)
      (row : Favorites) :
  method req = DELETE ->
  query_get (Favorites_table db) k = Some row ->
  run_view req (favorite_view t k) db =
    (Returned (serialize row, 200),
     {| request := req;
        store := with_favorites db (delete_row k (Favorites_table db));
        session := {| objects := [row]; pending_new := [];
                      pending_deleted := [] |} |}).
Proof.
  intros Hm Hget.
  destruct (query_get_present _ _ _ Hget) as [_ Hpk]. simpl in Hpk.
  destruct t; unfold_view; rewrite Hm; cbn -[query_get delete_row];
    rewrite Hget; cbn -[delete_row]; rewrite Hpk; reflexivity.
Qed.

(** The POST branch stores one new row, under a fresh key, with the
    foreign key of its own route set and the two others unset. *)
Lemma post_body (t : target) (req : Request) (k : Z) (db : Store) :
  method req = POST ->
  let row := favorite_for t (next_id (Favorites_table db)) k in
  run_view req (favorite_view t k) db =
    (Returned (serialize row, 200),
     {| request := req;
        store := with_favorites db (Favorites_table db ++ [row]);
        session := {| objects := [row]; pending_new := [];
                      pending_deleted := [] |} |}).
Proof.
  intros Hm row. subst row.
  destruct t; unfold_view; rewrite Hm; reflexivity.
Qed.

(** The body of [get_favorites] lists the whole table. *)
Lemma get_favorites_body (req : Request) (db : Store) :
  run_view req get_favorites db =
    (Returned (JArr (map to_json (Favorites_table db)), 200),
     open_request req db).
Proof. reflexivity. Qed.

(** Round trip on the bodies: the row stored by the POST branch is removed
    again by the DELETE branch called with the key that row received. *)
Lemma post_then_delete_table (t : target) (k : Z) (table : list Favorites) :
  delete_row (next_id table) (table ++ [favorite_for t (next_id table) k])
  = table.
Proof.
  rewrite delete_row_app, (delete_row_absent table _ (next_id_fresh table)).
  destruct t; unfold delete_row, has_pk; cbn; rewrite Z.eqb_refl; cbn;
    apply app_nil_r.
Qed.

Lemma favorite_for_pk (t : target) (key k : Z) :
  pk (favorite_for t key k) = Some key.
Proof. destruct t; reflexivity. Qed.

Lemma post_then_delete_body (t : target) (post delete : Request) (k : Z)
      (db : Store) :
  method post = POST -> method delete = DELETE ->
  let key := next_id (Favorites_table db) in
  let db1 := store (snd (run_view post (favorite_view t k) db)) in
  In (favorite_for t key k) (Favorites_table db1) /\
  store (snd (run_view delete (favorite_view t key) db1)) = db.
Proof.
  intros Hpost Hdelete key db1. subst key db1.
  rewrite (post_body t post k db Hpost). cbn [snd store].
  split.
  - cbn [with_favorites Favorites_table]. apply in_or_app. right. now left.
  - rewrite (delete_body_present t delete (next_id (Favorites_table db))
               (with_favorites db
                  (Favorites_table db ++
                     [favorite_for t (next_id (Favorites_table db)) k]))
               (favorite_for t (next_id (Favorites_table db)) k) Hdelete).
    + cbn [snd store]. rewrite with_favorites_twice.
      change (Favorites_table (with_favorites db ?l)) with l.
      rewrite post_then_delete_table. apply with_favorites_same.
    + cbn [with_favorites Favorites_table].
      apply query_get_last;
        [apply next_id_fresh | apply favorite_for_pk].
Qed.

(** The listing produced by the body of [get_favorites] after the POST
    branch has run holds the new row, serialized. *)
Lemma post_then_list_body (t : target) (post list : Request) (k : Z)
      (db : Store) :
  method post = POST ->
  let db1 := store (snd (run_view post (favorite_view t k) db)) in
  exists rows,
    fst (run_view list get_favorites db1) = Returned (JArr rows, 200) /\
    In (serialize (favorite_for t (next_id (Favorites_table db)) k)) rows.
Proof.
  intros Hpost db1. subst db1.
  rewrite (post_body t post k db Hpost). cbn [snd store].
  rewrite get_favorites_body. cbn [fst with_favorites Favorites_table].
  eexists. split; [reflexivity|].
  rewrite map_app. apply in_or_app. right. now left.
Qed.

(** ** Requests through the URL map *)

(** Every rule under [/users/<int:user_id>/favorites/...] binds the URL
    variable [user_id], and no view function registered there declares a
    parameter of that name (lines 109, 115, 131, 147): the call made by
    the dispatcher is refused by Python before the body starts. *)
Lemma favorite_request_faults (t : target) (m : http_method)
      (user_id target_id : Z) (db : Store) :
  m <> GET ->
  wsgi_app {| method := m; path := favorite_url t user_id target_id |} db =
    (ErrorPage 500 (TypeError_unexpected_keyword "user_id"), db).
Proof.
  intros Hm. destruct t, m; try contradiction; reflexivity.
Qed.

Lemma favorites_listing_request_faults (user_id : Z) (db : Store) :
  wsgi_app {| method := GET; path := url_user_favorites user_id |} db =
    (ErrorPage 500 (TypeError_unexpected_keyword "user_id"), db).
Proof. reflexivity. Qed.

(** No request ever changes one of the four reference tables. *)
Lemma with_favorites_frame (db : Store) (table : list Favorites) :
  User_table (with_favorites db table) = User_table db /\
  People_table (with_favorites db table) = People_table db /\
  Vehicles_table (with_favorites db table) = Vehicles_table db /\
  Planets_table (with_favorites db table) = Planets_table db.
Proof. repeat split. Qed.

(** ** The claims *)

(** C1 (code defect, evaluated at the failing input).  DELETE
    /users/1/favorites/people/9 on a database with no favourite 9: the
    body of the view would raise the typed error with status 404, but the
    request never reaches it.  The dispatcher passes [user_id] as a
    keyword argument, [post_or_delete_favorite_person(person_id)] has no
    such parameter, and the client gets the framework's 500 page for an
    untyped [TypeError], not the 404 of the claim. *)
Theorem C1_delete_absent_person_request :
  let req := {| method := DELETE; path := url_favorite_person 1 9 |} in
  has_row (Favorites_table sample_store) 9 = false /\
  wsgi_app req sample_store =
    (ErrorPage 500 (TypeError_unexpected_keyword "user_id"), sample_store) /\
  reply_status (fst (wsgi_app req sample_store)) <> 404 /\
  reply_body (fst (wsgi_app req sample_store)) = None /\
  run_view req (post_or_delete_favorite_person 9) sample_store =
    (Raised (APIError {| message := "User not found"; status_code := 404 |}),
     open_request req sample_store).
Proof.
  cbv zeta. repeat split; try reflexivity.
  vm_compute. discriminate.
Qed.

(** C2 (code defect, evaluated at the failing input).  Favourite 5 exists.
    DELETE on each of the three sub-routes with 5 in the path is refused
    with a [TypeError] before any lookup: nothing is looked up, nothing is
    deleted, and favourite 5 is still in the table afterwards.  Called
    directly, the body does delete the row whose primary key is 5. *)
Theorem C2_delete_request_deletes_nothing :
  let gone := delete_row 5 (Favorites_table sample_store) in
  has_row (Favorites_table sample_store) 5 = true /\
  (forall t : target,
     let req := {| method := DELETE; path := favorite_url t 1 5 |} in
     wsgi_app req sample_store =
       (ErrorPage 500 (TypeError_unexpected_keyword "user_id"),
        sample_store) /\
     has_row (Favorites_table (snd (wsgi_app req sample_store))) 5 = true /\
     store (snd (run_view req (favorite_view t 5) sample_store)) =
       with_favorites sample_store gone) /\
  has_row gone 5 = false.
Proof.
  cbv zeta. split; [reflexivity|]. split; [|reflexivity].
  intros t. destruct t; repeat split.
Qed.

(** C3.  A GET on a by-id endpoint ([/users/{id}], [/people/{id}],
    [/vehicles/{id}], [/planets/{id}]) whose id matches no row: the view
    serializes the absent lookup result without a presence check, which
    raises an untyped [AttributeError]; the typed API exception is not
    raised, the client gets status 500 and never 404, and the database is
    left as it was. *)
Theorem C3_get_by_id_absent_faults (e : entity) (db : Store) (k : Z) :
  entity_has_row e db k = false ->
  let req := {| method := GET; path := by_id_url e k |} in
  fst (dispatch_request (open_request req db)) =
    Raised (AttributeError_NoneType "serialize") /\
  is_typed (AttributeError_NoneType "serialize") = false /\
  wsgi_app req db =
    (ErrorPage 500 (AttributeError_NoneType "serialize"), db) /\
  reply_status (fst (wsgi_app req db)) <> 404.
Proof.
  intros Habsent req. subst req.
  assert (Hrun : dispatch_request
                   (open_request {| method := GET; path := by_id_url e k |} db)
                 = (Raised (AttributeError_NoneType "serialize"),
                    open_request {| method := GET; path := by_id_url e k |} db)).
  { destruct e; cbn in Habsent; apply query_get_absent in Habsent;
      unfold dispatch_request, open_request, bind, get_world;
      cbn -[query_get];
      unfold get_single_user, get_single_person, get_single_vehicle,
        get_single_planet, bind, get_world;
      cbn -[query_get]; rewrite Habsent; reflexivity. }
  assert (Happ : wsgi_app {| method := GET; path := by_id_url e k |} db =
                 (ErrorPage 500 (AttributeError_NoneType "serialize"), db)).
  { unfold wsgi_app, full_dispatch_request, full_dispatch.
    rewrite Hrun. reflexivity. }
  rewrite Hrun, Happ. cbn. repeat split; lia.
Qed.

Lemma C3_get_by_id_absent_faults_witness :
  let req := {| method := GET; path := by_id_url EUser 9 |} in
  fst (dispatch_request (open_request req sample_store)) =
    Raised (AttributeError_NoneType "serialize") /\
  is_typed (AttributeError_NoneType "serialize") = false /\
  wsgi_app req sample_store =
    (ErrorPage 500 (AttributeError_NoneType "serialize"), sample_store) /\
  reply_status (fst (wsgi_app req sample_store)) <> 404.
Proof.
  apply (C3_get_by_id_absent_faults EUser sample_store 9). reflexivity.
Defined.

(** C4 (code defect, evaluated at the failing input).  POST
    /users/1/favorites/people/4 followed by GET /users/1/favorites: both
    requests are refused with a [TypeError] on the unexpected keyword
    [user_id]; the POST stores nothing and the GET returns no array, so no
    row with [people_id = 4] is listed. *)
Theorem C4_post_then_list_request :
  let post := {| method := POST; path := url_favorite_person 1 4 |} in
  let list := {| method := GET; path := url_user_favorites 1 |} in
  let after_post := snd (wsgi_app post sample_store) in
  fst (wsgi_app post sample_store) =
    ErrorPage 500 (TypeError_unexpected_keyword "user_id") /\
  after_post = sample_store /\
  fst (wsgi_app list after_post) =
    ErrorPage 500 (TypeError_unexpected_keyword "user_id") /\
  reply_body (fst (wsgi_app list after_post)) = None /\
  existsb (fun f => match people_id f with
                    | Some p => Z.eqb p 4
                    | None => false
                    end) (Favorites_table after_post) = false.
Proof. cbv zeta. repeat split. Qed.

(** C5 (code defect, evaluated at the failing input).  GET
    /users/1/favorites on a database with two favourites: the rule binds
    [user_id], [get_favorites()] declares no parameter, and the request
    ends in the 500 page of a [TypeError] instead of 200 with the array of
    the two rows, which is what the body returns when it is run. *)
Theorem C5_list_favorites_request :
  let req := {| method := GET; path := url_user_favorites 1 |} in
  List.length (Favorites_table sample_store) = 2%nat /\
  wsgi_app req sample_store =
    (ErrorPage 500 (TypeError_unexpected_keyword "user_id"), sample_store) /\
  reply_status (fst (wsgi_app req sample_store)) <> 200 /\
  fst (run_view req get_favorites sample_store) =
    Returned (JArr (map to_json (Favorites_table sample_store)), 200).
Proof.
  cbv zeta. repeat split; try reflexivity.
  vm_compute. discriminate.
Qed.

(** C6 (code defect, evaluated at the failing input).  The round trip
    POST /users/1/favorites/people/4, DELETE /users/1/favorites/people/8
    (8 is the key the new row would receive), GET /users/1/favorites:
    each of the three requests is refused with a [TypeError]; no row is
    created, none is deleted, and no listing is returned. *)
Theorem C6_round_trip_request :
  let post := {| method := POST; path := url_favorite_person 1 4 |} in
  let delete := {| method := DELETE; path := url_favorite_person 1 8 |} in
  let list := {| method := GET; path := url_user_favorites 1 |} in
  let db1 := snd (wsgi_app post sample_store) in
  let db2 := snd (wsgi_app delete db1) in
  next_id (Favorites_table sample_store) = 8 /\
  fst (wsgi_app post sample_store) =
    ErrorPage 500 (TypeError_unexpected_keyword "user_id") /\
  fst (wsgi_app delete db1) =
    ErrorPage 500 (TypeError_unexpected_keyword "user_id") /\
  fst (wsgi_app list db2) =
    ErrorPage 500 (TypeError_unexpected_keyword "user_id") /\
  db2 = sample_store /\
  reply_body (fst (wsgi_app list db2)) = None.
Proof. cbv zeta. repeat split. Qed.

(** C7.  Whatever view raises the API exception, the registered handler
    turns it into the client's response: a JSON body that holds the
    message and the status code of the exception, sent with that status
    code as the HTTP status. *)
Theorem C7_api_exception_handled (view : M response) (w w' : World)
        (error : APIException) :
  view w = (Raised (APIError error), w') ->
  full_dispatch view w = (Reply (handle_invalid_usage error), w') /\
  reply_status (fst (full_dispatch view w)) = status_code error /\
  exists body,
    reply_body (fst (full_dispatch view w)) = Some body /\
    json_field "message" body = Some (JStr (message error)) /\
    json_field "status_code" body = Some (JNum (status_code error)).
Proof.
  intros Hraise. unfold full_dispatch. rewrite Hraise. cbn.
  repeat split. exists (to_dict error). repeat split.
Qed.

Lemma C7_api_exception_handled_witness :
  let req := {| method := DELETE; path := url_favorite_person 1 9 |} in
  let view := post_or_delete_favorite_person 9 in
  let w := open_request req sample_store in
  let error := {| message := "User not found"; status_code := 404 |} in
  full_dispatch view w = (Reply (handle_invalid_usage error), w) /\
  reply_status (fst (full_dispatch view w)) = status_code error /\
  exists body,
    reply_body (fst (full_dispatch view w)) = Some body /\
    json_field "message" body = Some (JStr (message error)) /\
    json_field "status_code" body = Some (JNum (status_code error)).
Proof.
  apply (C7_api_exception_handled
           (post_or_delete_favorite_person 9)
           (open_request {| method := DELETE;
                            path := url_favorite_person 1 9 |} sample_store)).
  reflexivity.
Defined.

(** C8.  On every database, GET /users, GET /people, GET /vehicles and
    GET /planets answer 200 with the array of the serialized rows of
    their table, one element per row, and change nothing. *)
Theorem C8_list_endpoints (db : Store) :
  (wsgi_app {| method := GET; path := url_users |} db =
     (Reply (JArr (map to_json (User_table db)), 200), db) /\
   List.length (map to_json (User_table db)) = List.length (User_table db))
  /\
  (wsgi_app {| method := GET; path := url_people |} db =
     (Reply (JArr (map to_jason (People_table db)), 200), db) /\
   List.length (map to_jason (People_table db))
     = List.length (People_table db))
  /\
  (wsgi_app {| method := GET; path := url_vehicles |} db =
     (Reply (JArr (map to_jason (Vehicles_table db)), 200), db) /\
   List.length (map to_jason (Vehicles_table db))
     = List.length (Vehicles_table db))
  /\
  (wsgi_app {| method := GET; path := url_planets |} db =
     (Reply (JArr (map to_jason (Planets_table db)), 200), db) /\
   List.length (map to_jason (Planets_table db))
     = List.length (Planets_table db)).
Proof.
  repeat split; try reflexivity; apply length_map.
Qed.

(** C9 (code defect, evaluated at the failing input).  DELETE on each of
    the three sub-routes with a key that no favourite carries: the tables
    are unchanged, as the claim says, but what is raised is not the typed
    API exception: the call is refused with an untyped [TypeError] before
    the lookup.  The typed error, raised with the session and the tables
    untouched, is what the body does when it is run. *)
Theorem C9_failed_delete_request :
  has_row (Favorites_table sample_store) 9 = false /\
  forall t : target,
    let req := {| method := DELETE; path := favorite_url t 1 9 |} in
    fst (dispatch_request (open_request req sample_store)) =
      Raised (TypeError_unexpected_keyword "user_id") /\
    is_typed (TypeError_unexpected_keyword "user_id") = false /\
    snd (wsgi_app req sample_store) = sample_store /\
    run_view req (favorite_view t 9) sample_store =
      (Raised (APIError {| message := "User not found";
                           status_code := 404 |}),
       open_request req sample_store).
Proof.
  split; [reflexivity|]. intros t. destruct t; repeat split.
Qed.

(** C10 (code defect, evaluated at the failing input).  POST on each of
    the three sub-routes against the empty database: the call is refused
    with a [TypeError] and no row is stored.  The stored row with only
    the route's own foreign key set is what the body produces when it is
    run. *)
Theorem C10_post_request_stores_nothing :
  forall t : target,
    let req := {| method := POST; path := favorite_url t 1 4 |} in
    wsgi_app req empty_store =
      (ErrorPage 500 (TypeError_unexpected_keyword "user_id"), empty_store) /\
    Favorites_table (snd (wsgi_app req empty_store)) = [] /\
    Favorites_table (store (snd (run_view req (favorite_view t 4)
                                   empty_store))) =
      [favorite_for t 1 4].
Proof.
  intros t. destruct t; repeat split.
Qed.

(** * Further properties of the code *)

(** ** The database URI *)

Lemma starts_with_split (p s : string) :
  starts_with p s = true -> exists rest, s = (p ++ rest)%string.
Proof.
  revert s. induction p as [|a p IH]; intros s Hs; cbn in Hs.
  - now exists s.
  - destruct s as [|b s]; [discriminate|].
    apply andb_true_iff in Hs. destruct Hs as [Hab Hrest].
    apply Ascii.eqb_eq in Hab. subst b.
    destruct (IH s Hrest) as [rest ->]. now exists rest.
Qed.

(** An occurrence at the head is replaced and the scan resumes behind it. *)
Lemma str_replace_match (rest : string) :
  str_replace legacy_scheme current_scheme (legacy_scheme ++ rest)%string =
  (current_scheme ++ str_replace legacy_scheme current_scheme rest)%string.
Proof. reflexivity. Qed.

Lemma str_replace_no_match (c : Ascii.ascii) (rest : string) :
  starts_with legacy_scheme (String c rest) = false ->
  str_replace legacy_scheme current_scheme (String c rest) =
  String c (str_replace legacy_scheme current_scheme rest).
Proof.
  intros Hno. unfold str_replace. cbn [replace_from]. now rewrite Hno.
Qed.

Lemma str_replace_absent (s : string) :
  occurs legacy_scheme s = false ->
  str_replace legacy_scheme current_scheme s = s.
Proof.
  induction s as [|c rest IH]; intros Hocc; [reflexivity|].
  cbn [occurs] in Hocc. apply orb_false_iff in Hocc.
  destruct Hocc as [Hhead Hrest].
  rewrite (str_replace_no_match c rest Hhead). now rewrite (IH Hrest).
Qed.

(** What the rewritten string starts with, the original started with,
    as long as no p is involved: the replacement only inserts text behind
    a p. *)
Lemma starts_with_str_replace (q : string) :
  p_free q = true ->
  forall s,
    starts_with q (str_replace legacy_scheme current_scheme s) = true ->
    starts_with q s = true.
Proof.
  induction q as [|c q IH]; intros Hfree s Hs; [reflexivity|].
  cbn [p_free] in Hfree. apply andb_true_iff in Hfree.
  destruct Hfree as [Hc Hq].
  destruct s as [|b rest]; [discriminate Hs|].
  destruct (starts_with legacy_scheme (String b rest)) eqn:Hhead.
  - destruct (starts_with_split _ _ Hhead) as [tail Htail].
    rewrite Htail in Hs. rewrite str_replace_match in Hs.
    cbn [current_scheme append starts_with] in Hs.
    apply andb_true_iff in Hs. destruct Hs as [Hcp _].
    rewrite Hcp in Hc. discriminate.
  - rewrite (str_replace_no_match b rest Hhead) in Hs.
    cbn [starts_with] in Hs |- *.
    apply andb_true_iff in Hs. destruct Hs as [Hcb Hrest].
    rewrite Hcb. cbn. now apply IH.
Qed.

Lemma starts_with_legacy_cons (c : ascii) (rest : string) :
  starts_with legacy_scheme (String c rest) =
  Ascii.eqb "p" c && starts_with "ostgres://" rest.
Proof. reflexivity. Qed.

Lemma str_replace_length_induction (P : string -> Prop) :
  (forall s, (forall t, (String.length t < String.length s)%nat -> P t) -> P s) ->
  forall s, P s.
Proof.
  intros Hstep s.
  assert (Hall : forall n t, (String.length t < n)%nat -> P t).
  { induction n as [|n IHn]; intros t Ht; [lia|].
    apply Hstep. intros u Hu. apply IHn. lia. }
  apply (Hall (S (String.length s))). lia.
Qed.

Lemma length_append (a b : string) :
  String.length (a ++ b)%string = (String.length a + String.length b)%nat.
Proof. induction a as [|c a IH]; cbn; [reflexivity | now rewrite IH]. Qed.

Lemma str_replace_free (s : string) :
  occurs legacy_scheme (str_replace legacy_scheme current_scheme s) = false.
Proof.
  induction s as [s IH] using str_replace_length_induction.
  destruct s as [|c rest]; [reflexivity|].
  destruct (starts_with legacy_scheme (String c rest)) eqn:Hhead.
  - destruct (starts_with_split _ _ Hhead) as [tail Htail].
    rewrite Htail, str_replace_match.
    assert (Hlen : (String.length tail < String.length (String c rest))%nat).
    { rewrite Htail, length_append. cbn. lia. }
    specialize (IH tail Hlen).
    cbn -[str_replace occurs] in *.
    cbn [occurs starts_with Ascii.eqb Bool.eqb andb orb legacy_scheme].
    exact IH.
  - rewrite (str_replace_no_match c rest Hhead).
    cbn [occurs]. apply orb_false_iff. split.
    + apply not_true_is_false. intros Hs.
      rewrite starts_with_legacy_cons in Hs, Hhead.
      apply andb_true_iff in Hs. destruct Hs as [Hc Hrest].
      apply (starts_with_str_replace "ostgres://" eq_refl) in Hrest.
      rewrite Hc, Hrest in Hhead. discriminate.
    + apply IH. cbn. lia.
Qed.

(** X1.  Whatever [DATABASE_URL] holds, and also when it is not set, the
    configured database URI contains no [postgres://] any more: every
    occurrence has been rewritten and the rewriting creates none. *)
Theorem database_uri_never_legacy (db_url : option string) :
  occurs "postgres://" (SQLALCHEMY_DATABASE_URI db_url) = false.
Proof.
  destruct db_url as [url|]; [|reflexivity].
  exact (str_replace_free url).
Qed.

(** X2.  A [DATABASE_URL] in which [postgres://] does not occur is taken
    over unchanged; this includes a variable that is set but empty, which
    gives the empty URI and not the SQLite fallback. *)
Theorem database_uri_keeps_other_urls (url : string) :
  occurs "postgres://" url = false ->
  SQLALCHEMY_DATABASE_URI (Some url) = url /\
  SQLALCHEMY_DATABASE_URI (Some EmptyString) = EmptyString /\
  SQLALCHEMY_DATABASE_URI (Some EmptyString) <> SQLALCHEMY_DATABASE_URI None.
Proof.
  intros Hfree. split; [exact (str_replace_absent url Hfree)|].
  split; [reflexivity | discriminate].
Qed.

Lemma database_uri_keeps_other_urls_witness :
  SQLALCHEMY_DATABASE_URI (Some "postgresql://user@host/db") =
    "postgresql://user@host/db" /\
  SQLALCHEMY_DATABASE_URI (Some EmptyString) = EmptyString /\
  SQLALCHEMY_DATABASE_URI (Some EmptyString) <> SQLALCHEMY_DATABASE_URI None.
Proof.
  apply (database_uri_keeps_other_urls "postgresql://user@host/db").
  reflexivity.
Defined.

(** X3.  A [DATABASE_URL] that starts with the scheme [postgres://] and
    has no further occurrence of it gets the scheme [postgresql://] and
    keeps everything behind the scheme. *)
Theorem database_uri_rewrites_scheme (rest : string) :
  occurs "postgres://" rest = false ->
  SQLALCHEMY_DATABASE_URI (Some ("postgres://" ++ rest)%string) =
    ("postgresql://" ++ rest)%string.
Proof.
  intros Hfree. unfold SQLALCHEMY_DATABASE_URI.
  change (str_replace legacy_scheme current_scheme
            (legacy_scheme ++ rest)%string =
          (current_scheme ++ rest)%string).
  rewrite str_replace_match. now rewrite (str_replace_absent rest Hfree).
Qed.

Lemma database_uri_rewrites_scheme_witness :
  SQLALCHEMY_DATABASE_URI (Some ("postgres://" ++ "user:pw@host:5432/db")%string)
  = ("postgresql://" ++ "user:pw@host:5432/db")%string.
Proof.
  apply (database_uri_rewrites_scheme "user:pw@host:5432/db"). reflexivity.
Defined.

(** X4.  The rewriting is idempotent: feeding the configured URI back as
    [DATABASE_URL] configures the same URI. *)
Theorem database_uri_idempotent (db_url : option string) :
  SQLALCHEMY_DATABASE_URI (Some (SQLALCHEMY_DATABASE_URI db_url)) =
  SQLALCHEMY_DATABASE_URI db_url.
Proof.
  destruct db_url as [url|]; [|reflexivity].
  apply (str_replace_absent _ (str_replace_free url)).
Qed.

(** ** Requests through the URL map, in general *)

Ltac unfold_dispatch :=
  unfold wsgi_app, full_dispatch_request, full_dispatch, dispatch_request,
    open_request, get_single_user, get_single_person, get_single_vehicle,
    get_single_planet, serialize_result, bind, get_world, ret, raise, jsonify;
  cbn -[query_get].

(** The reply to a GET on a by-id route, by the outcome of the lookup. *)
Lemma get_by_id_reply (e : entity) (db : Store) (k : Z) :
  wsgi_app {| method := GET; path := by_id_url e k |} db =
    (match entity_lookup e db k with
     | Some body => Reply (body, 200)
     | None => ErrorPage 500 (AttributeError_NoneType "serialize")
     end, db).
Proof.
  destruct e; unfold_dispatch; unfold entity_lookup;
    match goal with |- context [query_get ?t k] =>
      destruct (query_get t k); reflexivity end.
Qed.


(** X5.  A GET on a by-id endpoint whose id matches a row answers 200
    with the serialization of that row, whose [id] field is the id of the
    path, and leaves the database as it was. *)
Theorem get_by_id_serves_row (e : entity) (db : Store) (k : Z) :
  entity_has_row e db k = true ->
  exists body,
    entity_lookup e db k = Some body /\
    wsgi_app {| method := GET; path := by_id_url e k |} db =
      (Reply (body, 200), db) /\
    json_field "id" body = Some (JNum k).
Proof.
  intros Hrow. rewrite get_by_id_reply.
  destruct e; cbn in Hrow; apply query_get_has_row in Hrow;
    destruct Hrow as [row Hget];
    destruct (query_get_present _ _ _ Hget) as [_ Hpk];
    cbn in Hpk; injection Hpk as Hpk;
    exists (serialize row); unfold entity_lookup; rewrite Hget;
    cbn; rewrite Hpk; repeat split.
Qed.

Lemma get_by_id_serves_row_witness :
  exists body,
    entity_lookup EPeople sample_store 7 = Some body /\
    wsgi_app {| method := GET; path := by_id_url EPeople 7 |} sample_store =
      (Reply (body, 200), sample_store) /\
    json_field "id" body = Some (JNum 7).
Proof.
  apply (get_by_id_serves_row EPeople sample_store 7). reflexivity.
Defined.

(** X6.  What a by-id endpoint serves for an id is one of the elements of
    the array that the list endpoint of the same entity serves. *)
Theorem by_id_body_in_listing (e : entity) (db : Store) (k : Z) (body : json) :
  wsgi_app {| method := GET; path := by_id_url e k |} db =
    (Reply (body, 200), db) ->
  wsgi_app {| method := GET; path := list_url e |} db =
    (Reply (JArr (entity_listing e db), 200), db) /\
  In body (entity_listing e db).
Proof.
  rewrite get_by_id_reply. intros Hreply.
  split; [destruct e; reflexivity|].
  destruct (entity_lookup e db k) as [found|] eqn:Hfound; [|discriminate].
  injection Hreply as Hbody. subst found.
  destruct e; unfold entity_lookup in Hfound; unfold entity_listing;
    match type of Hfound with context [query_get ?t k] =>
      destruct (query_get t k) as [row|] eqn:Hget;
        [destruct (query_get_present _ _ _ Hget) as [Hin _];
         cbn in Hfound; injection Hfound as Hbody; subst body;
         apply in_map_iff; exists row; split; [reflexivity | exact Hin]
        | discriminate]
    end.
Qed.

Lemma by_id_body_in_listing_witness :
  wsgi_app {| method := GET; path := list_url EUser |} sample_store =
    (Reply (JArr (entity_listing EUser sample_store), 200), sample_store) /\
  In (JObj [("id", JNum 2); ("email", JStr "leia@rebels.org");
            ("password", JStr "y"); ("is_active", JBool true)])
     (entity_listing EUser sample_store).
Proof.
  apply (by_id_body_in_listing EUser sample_store 2). reflexivity.
Defined.



(** X9.  The typed API exception is never raised by a request that goes
    through the URL map, so the handler registered for it never runs: the
    only [raise] sites are in view bodies whose call is refused. *)
Theorem api_exception_unreachable (req : Request) (db : Store)
        (error : APIException) :
  fst (dispatch_request (open_request req db)) <> Raised (APIError error) /\
  fst (wsgi_app req db) <> Reply (handle_invalid_usage error).
Proof.
  destruct req as [m u].
  destruct u, m; try (split; cbn; discriminate);
    unfold_dispatch;
    match goal with |- context [query_get ?t ?k] =>
      destruct (query_get t k) end;
    split; cbn; try discriminate.
Qed.


(** ** Keys of a table under insertion and deletion *)

Section Keys.
Context {T : Type} `{Model T}.

Lemma has_row_app (table more : list T) (k : Z) :
  has_row (table ++ more) k = has_row table k || has_row more k.
Proof. unfold has_row. apply existsb_app. Qed.

Lemma has_pk_key (row : T) (k k' : Z) :
  pk row = Some k -> has_pk k' row = Z.eqb k k'.
Proof. intros Hpk. unfold has_pk. now rewrite Hpk. Qed.

Lemma has_row_delete_other (table : list T) (k k' : Z) :
  k' <> k -> has_row (delete_row k table) k' = has_row table k'.
Proof.
  intros Hneq. unfold has_row, delete_row.
  induction table as [|row rest IH]; [reflexivity|].
  cbn [filter existsb].
  destruct (has_pk k row) eqn:Hk; cbn [negb existsb].
  - rewrite IH. unfold has_pk in Hk |- *.
    destruct (pk row) as [key|]; [|discriminate].
    apply Z.eqb_eq in Hk. subst key.
    destruct (Z.eqb_spec k k'); [congruence | reflexivity].
  - now rewrite IH.
Qed.

Lemma has_row_delete_le (table : list T) (k k' : Z) :
  has_row table k' = false -> has_row (delete_row k table) k' = false.
Proof.
  intros Habsent. destruct (Z.eq_dec k' k) as [->|Hneq].
  - apply delete_row_gone.
  - now rewrite has_row_delete_other.
Qed.

Lemma keys_unique_app_fresh (table : list T) (row : T) (k : Z) :
  keys_unique table = true -> has_row table k = false -> pk row = Some k ->
  keys_unique (table ++ [row]) = true.
Proof.
  intros Huniq Hfresh Hpk.
  induction table as [|r rest IH]; cbn [app keys_unique].
  - rewrite Hpk. reflexivity.
  - cbn [keys_unique] in Huniq. destruct (pk r) as [key|] eqn:Hkey;
      [|discriminate].
    apply andb_true_iff in Huniq. destruct Huniq as [Hhead Hrest].
    unfold has_row in Hfresh. cbn [existsb] in Hfresh.
    apply orb_false_iff in Hfresh. destruct Hfresh as [Hr Hfresh].
    rewrite (IH Hrest Hfresh), andb_true_r.
    rewrite has_row_app. apply negb_true_iff in Hhead. rewrite Hhead.
    unfold has_row. cbn [existsb orb].
    rewrite (has_pk_key row k key Hpk), orb_false_r.
    rewrite (has_pk_key r key k Hkey) in Hr.
    rewrite Z.eqb_sym, Hr. reflexivity.
Qed.

Lemma keys_unique_delete (table : list T) (k : Z) :
  keys_unique table = true -> keys_unique (delete_row k table) = true.
Proof.
  induction table as [|r rest IH]; intros Huniq; [reflexivity|].
  cbn [keys_unique] in Huniq. destruct (pk r) as [key|] eqn:Hkey;
    [|discriminate].
  apply andb_true_iff in Huniq. destruct Huniq as [Hhead Hrest].
  unfold delete_row. cbn [filter].
  destruct (has_pk k r); cbn [negb]; [exact (IH Hrest)|].
  cbn [keys_unique]. rewrite Hkey.
  apply andb_true_iff. split; [|exact (IH Hrest)].
  apply negb_true_iff in Hhead. apply negb_true_iff.
  now apply has_row_delete_le.
Qed.

(** With unique keys a delete of a key that is there removes one row. *)
Lemma delete_row_length (table : list T) (k : Z) :
  keys_unique table = true -> has_row table k = true ->
  (List.length (delete_row k table) + 1 = List.length table)%nat.
Proof.
  induction table as [|r rest IH]; intros Huniq Hrow; [discriminate|].
  cbn [keys_unique] in Huniq. destruct (pk r) as [key|] eqn:Hkey;
    [|discriminate].
  apply andb_true_iff in Huniq. destruct Huniq as [Hhead Hrest].
  apply negb_true_iff in Hhead.
  unfold delete_row. cbn [filter].
  destruct (has_pk k r) eqn:Hk; cbn [negb List.length].
  - rewrite (has_pk_key r key k Hkey) in Hk. apply Z.eqb_eq in Hk. subst key.
    fold (delete_row k rest). rewrite (delete_row_absent rest k Hhead). lia.
  - unfold has_row in Hrow. cbn [existsb] in Hrow. rewrite Hk in Hrow.
    fold (delete_row k rest). specialize (IH Hrest Hrow). lia.
Qed.

(** The key handed out after an insertion under the fresh key is the
    next one. *)
Lemma next_id_after_insert (table : list T) (row : T) :
  pk row = Some (next_id table) ->
  next_id (table ++ [row]) = next_id table + 1.
Proof.
  intros Hpk.
  assert (Hgen : forall l m, pk row = Some m ->
            fold_right Z.max 0
              (map (fun r => match pk r with Some k => k | None => 0 end)
                   (l ++ [row])) =
            Z.max (fold_right Z.max 0
                     (map (fun r => match pk r with Some k => k | None => 0 end)
                          l))
                  (Z.max m 0)).
  { intros l m Hm. induction l as [|r rest IH]; cbn [app map fold_right].
    - rewrite Hm. lia.
    - rewrite IH. lia. }
  unfold next_id at 1. rewrite (Hgen table _ Hpk).
  pose proof (next_id_positive table). unfold next_id in *. lia.
Qed.
End Keys.

(** ** The view bodies, for every method *)

(** The branch taken for any method other than POST, by the outcome of
    the lookup. *)
Lemma else_body_absent (t : target) (req : Request) (k : Z) (db : Store) :
  method req <> POST ->
  query_get (Favorites_table db) k = None ->
  run_view req (favorite_view t k) db =
    (Raised (APIError {| message := "User not found"; status_code := 404 |}),
     open_request req db).
Proof.
  intros Hm Hget.
  destruct (method req) eqn:Hmethod; [| contradiction |];
    destruct t; unfold_view; rewrite Hmethod; cbn -[query_get];
    rewrite Hget; reflexivity.
Qed.

Lemma else_body_present (t : target) (req : Request) (k : Z) (db : Store)
      (row : Favorites) :
  method req <> POST ->
  query_get (Favorites_table db) k = Some row ->
  run_view req (favorite_view t k) db =
    (Returned (serialize row, 200),
     {| request := req;
        store := with_favorites db (delete_row k (Favorites_table db));
        session := {| objects := [row]; pending_new := [];
                      pending_deleted := [] |} |}).
Proof.
  intros Hm Hget.
  destruct (query_get_present _ _ _ Hget) as [_ Hpk]. simpl in Hpk.
  destruct (method req) eqn:Hmethod; [| contradiction |];
    destruct t; unfold_view; rewrite Hmethod; cbn -[query_get delete_row];
    rewrite Hget; cbn -[delete_row]; rewrite Hpk; reflexivity.
Qed.

(** The store a view body leaves behind is the store it found, with at
    most the favourites table replaced. *)
Lemma favorite_body_store (t : target) (req : Request) (k : Z) (db : Store) :
  let table := Favorites_table db in
  let db' := store (snd (run_view req (favorite_view t k) db)) in
  db' = with_favorites db (table ++ [favorite_for t (next_id table) k]) \/
  db' = db \/
  db' = with_favorites db (delete_row k table).
Proof.
  cbv zeta. destruct (method req) eqn:Hm.
  - assert (Hnp : method req <> POST) by (rewrite Hm; discriminate).
    destruct (query_get (Favorites_table db) k) as [row|] eqn:Hget.
    + right. right. now rewrite (else_body_present t req k db row Hnp Hget).
    + right. left. now rewrite (else_body_absent t req k db Hnp Hget).
  - left. now rewrite (post_body t req k db Hm).
  - assert (Hnp : method req <> POST) by (rewrite Hm; discriminate).
    destruct (query_get (Favorites_table db) k) as [row|] eqn:Hget.
    + right. right. now rewrite (else_body_present t req k db row Hnp Hget).
    + right. left. now rewrite (else_body_absent t req k db Hnp Hget).
Qed.

(** X11.  Round trip on the view bodies: the POST branch answers 200 with
    the new row, whose [id] field is the key it received; the DELETE
    branch called with that key answers 200 with the same row, and the
    database is again exactly what it was before the POST. *)
Theorem favorite_round_trip (t : target) (p1 p2 : url) (k : Z) (db : Store) :
  let post := {| method := POST; path := p1 |} in
  let delete := {| method := DELETE; path := p2 |} in
  let key := next_id (Favorites_table db) in
  let created := serialize (favorite_for t key k) in
  let after_post := store (snd (run_view post (favorite_view t k) db)) in
  fst (run_view post (favorite_view t k) db) = Returned (created, 200) /\
  json_field "id" created = Some (JNum key) /\
  fst (run_view delete (favorite_view t key) after_post) =
    Returned (created, 200) /\
  store (snd (run_view delete (favorite_view t key) after_post)) = db.
Proof.
  cbv zeta.
  rewrite (post_body t {| method := POST; path := p1 |} k db eq_refl).
  cbn [fst snd store].
  split; [reflexivity|]. split; [destruct t; reflexivity|].
  rewrite (delete_body_present t {| method := DELETE; path := p2 |}
             (next_id (Favorites_table db))
             (with_favorites db
                (Favorites_table db ++
                   [favorite_for t (next_id (Favorites_table db)) k]))
             (favorite_for t (next_id (Favorites_table db)) k) eq_refl).
  - cbn [fst snd store]. split; [reflexivity|].
    rewrite with_favorites_twice.
    change (Favorites_table (with_favorites db ?l)) with l.
    rewrite post_then_delete_table. apply with_favorites_same.
  - change (Favorites_table (with_favorites db ?l)) with l.
    apply query_get_last; [apply next_id_fresh | apply favorite_for_pk].
Qed.

(** X12.  Invariant of the favourites table: if every row has a key and
    no two rows share one, the same holds after any view body of the
    favourites sub-routes has run, whatever the method and the argument. *)
Theorem favorite_bodies_keep_keys_unique (t : target) (req : Request) (k : Z)
        (db : Store) :
  keys_unique (Favorites_table db) = true ->
  keys_unique
    (Favorites_table (store (snd (run_view req (favorite_view t k) db))))
  = true.
Proof.
  intros Huniq.
  destruct (favorite_body_store t req k db) as [-> | [-> | ->]].
  - change (Favorites_table (with_favorites db ?l)) with l.
    apply (keys_unique_app_fresh _ _ (next_id (Favorites_table db)) Huniq).
    + apply next_id_fresh.
    + apply favorite_for_pk.
  - exact Huniq.
  - change (Favorites_table (with_favorites db ?l)) with l.
    now apply keys_unique_delete.
Qed.

Lemma favorite_bodies_keep_keys_unique_witness :
  keys_unique
    (Favorites_table
       (store (snd (run_view {| method := POST; path := url_users |}
                             (favorite_view TVehicle 3) sample_store))))
  = true.
Proof.
  apply (favorite_bodies_keep_keys_unique TVehicle
           {| method := POST; path := url_users |} 3 sample_store).
  reflexivity.
Defined.

(** X13.  No view body of the favourites sub-routes writes to the users,
    people, vehicles or planets table, whatever the method and the
    argument; in particular a POST neither needs nor creates the person,
    vehicle or planet it points at. *)
Theorem favorite_bodies_keep_reference_tables (t : target) (req : Request)
        (k : Z) (db : Store) :
  let db' := store (snd (run_view req (favorite_view t k) db)) in
  User_table db' = User_table db /\
  People_table db' = People_table db /\
  Vehicles_table db' = Vehicles_table db /\
  Planets_table db' = Planets_table db.
Proof.
  cbv zeta.
  destruct (favorite_body_store t req k db) as [-> | [-> | ->]];
    repeat split.
Qed.

(** X14.  With unique keys, the DELETE branch called with a key that is
    in the table removes exactly one row: the table is one row shorter,
    the key is gone, and every other key is there or not as before. *)
Theorem delete_body_removes_one_row (t : target) (p : url) (k : Z)
        (db : Store) :
  keys_unique (Favorites_table db) = true ->
  has_row (Favorites_table db) k = true ->
  let table' :=
    Favorites_table
      (store (snd (run_view {| method := DELETE; path := p |}
                            (favorite_view t k) db))) in
  (List.length table' + 1 = List.length (Favorites_table db))%nat /\
  has_row table' k = false /\
  forall k', k' <> k -> has_row table' k' = has_row (Favorites_table db) k'.
Proof.
  intros Huniq Hrow. cbv zeta.
  destruct (query_get_has_row _ _ Hrow) as [row Hget].
  rewrite (delete_body_present t {| method := DELETE; path := p |} k db row
             eq_refl Hget).
  cbn [snd store]. change (Favorites_table (with_favorites db ?l)) with l.
  split; [now apply delete_row_length|].
  split; [apply delete_row_gone|].
  intros k' Hneq. now apply has_row_delete_other.
Qed.

Lemma delete_body_removes_one_row_witness :
  let table' :=
    Favorites_table
      (store (snd (run_view {| method := DELETE; path := url_users |}
                            (favorite_view TPerson 5) sample_store))) in
  (List.length table' + 1 = List.length (Favorites_table sample_store))%nat /\
  has_row table' 5 = false /\
  forall k', k' <> 5 ->
    has_row table' k' = has_row (Favorites_table sample_store) k'.
Proof.
  apply (delete_body_removes_one_row TPerson url_users 5 sample_store);
    reflexivity.
Defined.

(** X15.  Deleting twice: after the DELETE branch has removed the row of
    a key, a second call with the same key, through whichever of the
    three views, raises the typed error "User not found" with status 404
    and leaves the database as the first call left it. *)
Theorem delete_body_twice (t t' : target) (p p' : url) (k : Z) (db : Store) :
  has_row (Favorites_table db) k = true ->
  let first := run_view {| method := DELETE; path := p |}
                 (favorite_view t k) db in
  let second := run_view {| method := DELETE; path := p' |}
                  (favorite_view t' k) (store (snd first)) in
  (exists row, query_get (Favorites_table db) k = Some row /\
               fst first = Returned (serialize row, 200)) /\
  fst second =
    Raised (APIError {| message := "User not found"; status_code := 404 |}) /\
  store (snd second) = store (snd first).
Proof.
  intros Hrow. cbv zeta.
  destruct (query_get_has_row _ _ Hrow) as [row Hget].
  rewrite (delete_body_present t {| method := DELETE; path := p |} k db row
             eq_refl Hget).
  cbn [fst snd store].
  split; [exists row; now split|].
  rewrite (delete_body_absent t' {| method := DELETE; path := p' |} k _
             eq_refl).
  - split; reflexivity.
  - change (Favorites_table (with_favorites db ?l)) with l.
    apply delete_row_gone.
Qed.

Lemma delete_body_twice_witness :
  let first := run_view {| method := DELETE; path := url_users |}
                 (favorite_view TPerson 5) sample_store in
  let second := run_view {| method := DELETE; path := url_users |}
                  (favorite_view TPlanet 5) (store (snd first)) in
  (exists row, query_get (Favorites_table sample_store) 5 = Some row /\
               fst first = Returned (serialize row, 200)) /\
  fst second =
    Raised (APIError {| message := "User not found"; status_code := 404 |}) /\
  store (snd second) = store (snd first).
Proof.
  apply (delete_body_twice TPerson TPlanet url_users url_users 5 sample_store).
  reflexivity.
Defined.

(** X16.  The POST branch never deduplicates and never checks its target:
    called twice with the same argument, on any database, it stores two
    rows that point at the same target under two different keys, behind
    the rows that were there. *)
Theorem post_body_twice_stores_two_rows (t : target) (p1 p2 : url) (k : Z)
        (db : Store) :
  let db1 := store (snd (run_view {| method := POST; path := p1 |}
                                  (favorite_view t k) db)) in
  let db2 := store (snd (run_view {| method := POST; path := p2 |}
                                  (favorite_view t k) db1)) in
  exists k1 k2,
    k1 <> k2 /\
    Favorites_table db2 =
      Favorites_table db ++ [favorite_for t k1 k; favorite_for t k2 k].
Proof.
  cbv zeta.
  rewrite (post_body t {| method := POST; path := p1 |} k db eq_refl).
  cbn [snd store].
  rewrite (post_body t {| method := POST; path := p2 |} k _ eq_refl).
  cbn [snd store Favorites_table with_favorites].
  exists (next_id (Favorites_table db)), (next_id (Favorites_table db) + 1).
  split; [lia|].
  rewrite (next_id_after_insert (Favorites_table db) _
             (favorite_for_pk t _ k)).
  rewrite <- app_assoc. reflexivity.
Qed.

(** X17.  The DELETE branch looks its argument up as the key of a
    favourite, not as the target of one: after the POST branch has stored
    a favourite for target [k], calling the DELETE branch with [k] raises
    "User not found" and keeps that favourite, whenever [k] is neither
    the key of an existing row nor the key just handed out. *)
Theorem delete_by_target_id_misses (t : target) (p1 p2 : url) (k : Z)
        (db : Store) :
  has_row (Favorites_table db) k = false ->
  k <> next_id (Favorites_table db) ->
  let db1 := store (snd (run_view {| method := POST; path := p1 |}
                                  (favorite_view t k) db)) in
  let delete := {| method := DELETE; path := p2 |} in
  run_view delete (favorite_view t k) db1 =
    (Raised (APIError {| message := "User not found"; status_code := 404 |}),
     open_request delete db1) /\
  In (favorite_for t (next_id (Favorites_table db)) k) (Favorites_table db1).
Proof.
  intros Habsent Hneq. cbv zeta.
  rewrite (post_body t {| method := POST; path := p1 |} k db eq_refl).
  cbn [snd store]. change (Favorites_table (with_favorites db ?l)) with l.
  split.
  - apply delete_body_absent; [reflexivity|].
    change (Favorites_table (with_favorites db ?l)) with l.
    rewrite has_row_app, Habsent. unfold has_row. cbn [existsb orb].
    rewrite (has_pk_key _ _ k (favorite_for_pk t _ k)), orb_false_r.
    apply Z.eqb_neq. congruence.
  - apply in_or_app. right. now left.
Qed.

Lemma delete_by_target_id_misses_witness :
  let db1 := store (snd (run_view {| method := POST; path := url_users |}
                                  (favorite_view TPerson 4) sample_store)) in
  let delete := {| method := DELETE; path := url_users |} in
  run_view delete (favorite_view TPerson 4) db1 =
    (Raised (APIError {| message := "User not found"; status_code := 404 |}),
     open_request delete db1) /\
  In (favorite_for TPerson (next_id (Favorites_table sample_store)) 4)
     (Favorites_table db1).
Proof.
  apply (delete_by_target_id_misses TPerson url_users url_users 4
           sample_store); [reflexivity | vm_compute; discriminate].
Defined.

(** X18.  The branch taken for DELETE is the same in the three views: a
    DELETE body gives the same outcome and the same database whichever
    sub-route it belongs to, so a favourite is deleted by its key through
    any of them, whatever it points at. *)
Theorem delete_branches_agree (t t' : target) (p : url) (k : Z) (db : Store) :
  run_view {| method := DELETE; path := p |} (favorite_view t k) db =
  run_view {| method := DELETE; path := p |} (favorite_view t' k) db.
Proof.
  destruct (query_get (Favorites_table db) k) as [row|] eqn:Hget.
  - rewrite !(fun t => delete_body_present t {| method := DELETE; path := p |}
                         k db row eq_refl Hget).
    reflexivity.
  - destruct (has_row (Favorites_table db) k) eqn:Hrow.
    + destruct (query_get_has_row _ _ Hrow) as [row Hrow'].
      rewrite Hrow' in Hget. discriminate.
    + rewrite !(fun t => delete_body_absent t
                           {| method := DELETE; path := p |} k db eq_refl Hrow).
      reflexivity.
Qed.

